(** * The readiness probe of [recipe_app/static/js/main.js]

    The script registers one listener for [DOMContentLoaded] on the
    document.  The listener logs an initialisation message, looks up the
    first [main] element and logs the length of its [innerHTML], or logs
    an error when there is no such element.

    The script is embedded as a computation in a state-and-exception
    monad over a world made of the document tree, the document's event
    listener list and the console.  The host operations the script calls
    (the lookup of a method on [document], [querySelector], [innerHTML],
    [addEventListener], the firing of the event, [console.log],
    [console.error]) are modelled after the DOM and HTML standards. *)

From Stdlib Require Import List NArith ZArith Bool Ascii String Lia.
Import ListNotations.

(** ** JavaScript strings *)

Module JSString.

(** A JavaScript string is a sequence of UTF-16 code units, and its
    [length] is the number of code units. *)
Definition code_unit : Type := N.
Definition t : Type := list code_unit.

Definition length (s : t) : Z := Z.of_nat (List.length s).

Fixpoint eqb (a b : t) : bool :=
  match a, b with
  | [], [] => true
  | x :: a', y :: b' => N.eqb x y && eqb a' b'
  | _, _ => false
  end.

(** An ASCII literal of the source text as a JavaScript string. *)
Definition lit (s : string) : t := map N_of_ascii (list_ascii_of_string s).

(** Surrogate code units: a high one followed by a low one encodes one
    character outside the basic plane. *)
Definition is_high_surrogate (c : code_unit) : bool :=
  ((55296 <=? c) && (c <=? 56319))%N.
Definition is_low_surrogate (c : code_unit) : bool :=
  ((56320 <=? c) && (c <=? 57343))%N.

(** The number of characters (Unicode code points) a string encodes: a
    surrogate pair counts once, every other code unit once. *)
Fixpoint character_count (s : t) : Z :=
  match s with
  | [] => 0
  | c :: r =>
      match r with
      | c' :: r' =>
          if is_high_surrogate c && is_low_surrogate c'
          then 1 + character_count r'
          else 1 + character_count r
      | [] => 1
      end
  end.

(** How often the code unit [c] occurs in [s]. *)
Definition occurs (c : code_unit) (s : t) : Z :=
  Z.of_nat (count_occ N.eq_dec s c).

End JSString.

Definition jsstring : Type := JSString.t.
Definition lit : string -> jsstring := JSString.lit.

(** ** The document tree and the DOM operations the script reads *)

Module DOM.

Inductive namespace : Type := HTML | MathML | SVG | OtherNamespace.

Inductive attr_namespace : Type :=
| NoNamespace | XMLNamespace | XMLNSNamespace | XLinkNamespace
| OtherAttrNamespace.

Record attribute : Type := Attribute {
  attr_ns : attr_namespace;
  attr_prefix : option jsstring;
  attr_local : jsstring;
  attr_value : jsstring
}.

(** Nodes of the tree: character data, comments, processing instructions
    and elements.  An element has a namespace, a prefix, a local name, an
    [is] value, attributes and children in tree order; a [template]
    element has its template contents besides, and an [object] element
    is or is not showing its fallback content. *)
Inductive node : Type :=
| Text (data : jsstring)
| Comment (data : jsstring)
| ProcessingInstruction (target data : jsstring)
| Elem (e : element)
with element : Type :=
| Element (ns : namespace) (prefix : option jsstring) (local : jsstring)
          (is_value : option jsstring) (attrs : list attribute)
          (children : list node) (contents : list node) (fallback : bool).

(** A document is the list of its children; the doctype plays no part in
    what the script reads and is left out. *)
Definition Document : Type := list node.

Definition namespaceURI (e : element) : namespace :=
  match e with Element n _ _ _ _ _ _ _ => n end.
Definition element_prefix (e : element) : option jsstring :=
  match e with Element _ p _ _ _ _ _ _ => p end.
Definition localName (e : element) : jsstring :=
  match e with Element _ _ l _ _ _ _ _ => l end.
Definition is_of (e : element) : option jsstring :=
  match e with Element _ _ _ i _ _ _ _ => i end.
Definition attributes (e : element) : list attribute :=
  match e with Element _ _ _ _ a _ _ _ => a end.
Definition childNodes (e : element) : list node :=
  match e with Element _ _ _ _ _ k _ _ => k end.
Definition template_contents (e : element) : list node :=
  match e with Element _ _ _ _ _ _ c _ => c end.
Definition showing_fallback (e : element) : bool :=
  match e with Element _ _ _ _ _ _ _ f => f end.

Definition is_html_namespace (n : namespace) : bool :=
  match n with HTML => true | _ => false end.

Definition qualified (p : option jsstring) (l : jsstring) : jsstring :=
  match p with Some x => x ++ lit ":" ++ l | None => l end.

Definition one_of (names : list string) (t : jsstring) : bool :=
  existsb (fun n => JSString.eqb (lit n) t) names.

(** An HTML element whose local name is among [names]. *)
Definition html_one_of (names : list string) (e : element) : bool :=
  is_html_namespace (namespaceURI e) && one_of names (localName e).

(** The value of the content attribute [name] (an attribute in no
    namespace), when the element has one. *)
Definition content_attribute (name : string) (e : element)
  : option jsstring :=
  option_map attr_value
    (find (fun a => match attr_ns a with
                    | NoNamespace => JSString.eqb (lit name) (attr_local a)
                    | _ => false
                    end)
          (attributes e)).

(** *** Serialisation (the HTML fragment serialisation algorithm) *)

Definition ampersand : N := 38.
Definition no_break_space : N := 160.
Definition quotation_mark : N := 34.
Definition less_than : N := 60.
Definition greater_than : N := 62.

Definition escape_unit (attribute_mode : bool) (c : N) : jsstring :=
  if N.eqb c ampersand then lit "&amp;"
  else if N.eqb c no_break_space then lit "&nbsp;"
  else if N.eqb c less_than then lit "&lt;"
  else if N.eqb c greater_than then lit "&gt;"
  else if attribute_mode && N.eqb c quotation_mark then lit "&quot;"
  else [c].

Definition escape (attribute_mode : bool) (s : jsstring) : jsstring :=
  flat_map (escape_unit attribute_mode) s.

(** Elements that serialise without content and end tag. *)
Definition serializes_as_void : element -> bool :=
  html_one_of ["area"; "base"; "br"; "col"; "embed"; "hr"; "img"; "input";
               "link"; "meta"; "source"; "track"; "wbr";
               "basefont"; "bgsound"; "frame"; "keygen"; "param"]%string.

(** Elements whose text children are serialised unescaped; [noscript] is
    one of them where scripting is enabled. *)
Definition raw_text_parent (scripting : bool) (e : element) : bool :=
  html_one_of ["style"; "script"; "xmp"; "iframe"; "noembed"; "noframes";
               "plaintext"]%string e
  || (scripting && html_one_of ["noscript"]%string e).

Definition is_template : element -> bool := html_one_of ["template"]%string.

Definition serialized_name (a : attribute) : jsstring :=
  match attr_ns a with
  | NoNamespace => attr_local a
  | XMLNamespace => lit "xml:" ++ attr_local a
  | XMLNSNamespace =>
      if JSString.eqb (attr_local a) (lit "xmlns") then lit "xmlns"
      else lit "xmlns:" ++ attr_local a
  | XLinkNamespace => lit "xlink:" ++ attr_local a
  | OtherAttrNamespace => qualified (attr_prefix a) (attr_local a)
  end.

Definition serialize_attr (a : attribute) : jsstring :=
  lit " " ++ serialized_name a ++ lit "=" ++ [quotation_mark]
  ++ escape true (attr_value a) ++ [quotation_mark].

Definition tagname (e : element) : jsstring :=
  match namespaceURI e with
  | HTML | MathML | SVG => localName e
  | OtherNamespace => qualified (element_prefix e) (localName e)
  end.

(** The [is] value is written out when no [is] attribute carries it. *)
Definition serialize_is (e : element) : jsstring :=
  match is_of e, content_attribute "is" e with
  | Some v, None =>
      lit " is=" ++ [quotation_mark] ++ escape true v ++ [quotation_mark]
  | _, _ => []
  end.

Definition start_tag (e : element) : jsstring :=
  lit "<" ++ tagname e ++ serialize_is e
  ++ flat_map serialize_attr (attributes e) ++ lit ">".

Definition end_tag (e : element) : jsstring :=
  lit "</" ++ tagname e ++ lit ">".

(** [serialize_fragment scripting e] is the algorithm run on the element
    [e]: the serialisation of its children, or of its template contents
    when it is a [template].  Inside template contents scripting is
    disabled. *)
Fixpoint serialize_fragment (scripting : bool) (e : element) : jsstring :=
  if serializes_as_void e then []
  else
    match e with
    | Element _ _ _ _ _ k c _ =>
        if is_template e then flat_map (serialize_child false false) c
        else
          flat_map (serialize_child scripting (raw_text_parent scripting e))
                   k
    end
with serialize_child (scripting raw : bool) (n : node) : jsstring :=
  match n with
  | Text d => if raw then d else escape false d
  | Comment d => lit "<!--" ++ d ++ lit "-->"
  | ProcessingInstruction t d => lit "<?" ++ t ++ lit " " ++ d ++ lit ">"
  | Elem e =>
      start_tag e ++
      (if serializes_as_void e then []
       else serialize_fragment scripting e ++ end_tag e)
  end.

(** [el.innerHTML] and [el.outerHTML] of an element of the document. *)
Definition innerHTML (e : element) : jsstring := serialize_fragment true e.

Definition outerHTML (e : element) : jsstring :=
  serialize_child true false (Elem e).

(** *** Selector queries *)

(** The elements of a subtree, the root first, in tree order.  Template
    contents are no part of the tree. *)
Fixpoint node_elements (n : node) : list element :=
  match n with
  | Text _ | Comment _ | ProcessingInstruction _ _ => []
  | Elem e => inclusive_descendants e
  end
with inclusive_descendants (e : element) : list element :=
  match e with
  | Element n p l i a k c f =>
      Element n p l i a k c f :: flat_map node_elements k
  end.

Definition elements (d : Document) : list element :=
  flat_map node_elements d.

Definition descendants (e : element) : list element :=
  flat_map node_elements (childNodes e).

(** The fragment of the selector language that is modelled: a type
    selector, written as a name of ASCII letters, digits, hyphens and
    underscores that starts with a letter or an underscore.  In an HTML
    document the name is compared in lower case with the local name of
    an HTML element, and as written with that of any other element.  A
    string outside this fragment is treated as no selector; the script
    passes ['main'] only. *)
Inductive selector : Type := TypeSelector (name : jsstring).

Definition is_upper (c : N) : bool := ((65 <=? c) && (c <=? 90))%N.
Definition is_lower (c : N) : bool := ((97 <=? c) && (c <=? 122))%N.
Definition is_letter (c : N) : bool := is_upper c || is_lower c.
Definition is_digit (c : N) : bool := ((48 <=? c) && (c <=? 57))%N.
Definition is_name_start (c : N) : bool := is_letter c || N.eqb c 95.
Definition is_name_unit (c : N) : bool :=
  is_name_start c || is_digit c || N.eqb c 45.
Definition to_lower (c : N) : N := if is_upper c then (c + 32)%N else c.

Definition parse_selector (s : jsstring) : option selector :=
  match s with
  | [] => None
  | c :: r =>
      if is_name_start c && forallb is_name_unit r
      then Some (TypeSelector s) else None
  end.

Definition matches (sel : selector) (e : element) : bool :=
  match sel with
  | TypeSelector n =>
      if is_html_namespace (namespaceURI e)
      then JSString.eqb (map to_lower n) (localName e)
      else JSString.eqb n (localName e)
  end.

(** All matches in tree order, and the first of them. *)
Definition querySelectorAll (d : Document) (sel : selector) : list element :=
  filter (matches sel) (elements d).

Definition querySelector (d : Document) (sel : selector) : option element :=
  find (matches sel) (elements d).

(** *** Named properties of the document *)

Definition non_empty (v : option jsstring) : list jsstring :=
  match v with
  | Some (c :: s) => [c :: s]
  | _ => []
  end.

(** An [embed] or [object] element is exposed when no ancestor is an
    exposed [object]; an [object] besides has to show no fallback
    content or to have no [object] or [embed] descendant. *)
Definition exposed (under_exposed_object : bool) (e : element) : bool :=
  negb under_exposed_object &&
  (if html_one_of ["object"]%string e
   then negb (showing_fallback e)
        || negb (existsb (html_one_of ["object"; "embed"]%string)
                         (descendants e))
   else true).

(** The names an element contributes: the [name] of a [form], [iframe],
    [img], exposed [embed] or exposed [object]; the [id] of an exposed
    [object]; the [id] of an [img] that has a [name] too. *)
Definition contributed_names (under_exposed_object : bool) (e : element)
  : list jsstring :=
  let name := non_empty (content_attribute "name" e) in
  let id := non_empty (content_attribute "id" e) in
  if html_one_of ["form"; "iframe"]%string e then name
  else if html_one_of ["img"]%string e then
    match name with [] => [] | _ => id ++ name end
  else if html_one_of ["embed"]%string e then
    if exposed under_exposed_object e then name else []
  else if html_one_of ["object"]%string e then
    if exposed under_exposed_object e then id ++ name else []
  else [].

Fixpoint node_names (under_exposed_object : bool) (n : node)
  : list jsstring :=
  match n with
  | Text _ | Comment _ | ProcessingInstruction _ _ => []
  | Elem e => element_names under_exposed_object e
  end
with element_names (under_exposed_object : bool) (e : element)
  : list jsstring :=
  match e with
  | Element n p l i a k c f =>
      let this := Element n p l i a k c f in
      contributed_names under_exposed_object this ++
      flat_map
        (node_names
           (under_exposed_object
            || (html_one_of ["object"]%string this
                && exposed under_exposed_object this)))
        k
  end.

(** The supported property names of the document, in tree order. *)
Definition property_names (d : Document) : list jsstring :=
  flat_map (node_names false) d.

(** Whether [document[name]] is a named element (or a collection of
    them) rather than what the prototype chain holds under [name]: named
    properties of the document override the built-in ones. *)
Definition has_named_property (d : Document) (name : jsstring) : bool :=
  existsb (JSString.eqb name) (property_names d).

End DOM.

(** ** The world the script runs in *)

Module Host.

Import DOM.

(** Values handed to the console: the script passes strings and one
    number. *)
Inductive value : Type :=
| VString (s : jsstring)
| VNumber (n : Z).

Inductive exn : Type := TypeError | SyntaxError.

Inductive level : Type := Info | Error.

(** A console entry: a call of [console.log] or [console.error] with its
    arguments, or the report of an exception no handler caught. *)
Inductive entry : Type :=
| Diagnostic (l : level) (args : list value)
| Uncaught (e : exn).

(** The function objects of the script.  [main.js] has one function
    expression, the listener it registers. *)
Inductive callback : Type := ProbeListener.

Record listener : Type := Listener {
  type : jsstring;
  handler : callback;
  once : bool
}.

Record world : Type := World {
  document : Document;
  listeners : list listener;
  console : list entry
}.

(** *** Computations: state passing with abrupt completion *)

Inductive completion (A : Type) : Type :=
| Normal (a : A)
| Throw (e : exn).
Arguments Normal {A} a.
Arguments Throw {A} e.

Definition JS (A : Type) : Type := world -> completion A * world.

Definition ret {A} (a : A) : JS A := fun w => (Normal a, w).

Definition bind {A B} (m : JS A) (k : A -> JS B) : JS B :=
  fun w =>
    match m w with
    | (Normal a, w') => k a w'
    | (Throw e, w') => (Throw e, w')
    end.

Definition throw {A} (e : exn) : JS A := fun w => (Throw e, w).

Definition exec {A} (m : JS A) (w : world) : world := snd (m w).
Definition result {A} (m : JS A) (w : world) : completion A := fst (m w).

Declare Scope js_scope.
Delimit Scope js_scope with js.
Notation "x <- m ;; k" := (bind m (fun x => k))
  (at level 61, m at next level, right associativity) : js_scope.
Notation "m ;; k" := (bind m (fun _ => k))
  (at level 61, right associativity) : js_scope.

(** *** The console *)

Definition emit (x : entry) : JS unit :=
  fun w => (Normal tt, World (document w) (listeners w) (console w ++ [x])).

Definition console_log (args : list value) : JS unit :=
  emit (Diagnostic Info args).
Definition console_error (args : list value) : JS unit :=
  emit (Diagnostic Error args).

(** The host runs a piece of script and reports on the console an
    exception that escapes it. *)
Definition reporting (m : JS unit) : JS unit :=
  fun w =>
    match m w with
    | (Normal _, w') => (Normal tt, w')
    | (Throw e, w') => emit (Uncaught e) w'
    end.

(** *** The document *)

(** Taking the method [name] off [document] to call it: when the document
    has a named property [name], the property is an element or a
    collection in place of the method, and calling it raises
    [TypeError]. *)
Definition document_method (name : jsstring) : JS unit :=
  fun w =>
    if has_named_property (document w) name
    then (Throw TypeError, w) else (Normal tt, w).

(** [document.querySelector(s)]: a string that is no selector raises
    [SyntaxError]; otherwise the first match or [null]. *)
Definition document_querySelector (s : jsstring) : JS (option element) :=
  (document_method (lit "querySelector") ;;
   fun w =>
     match parse_selector s with
     | Some sel => (Normal (querySelector (document w) sel), w)
     | None => (Throw SyntaxError, w)
     end)%js.

(** [r.innerHTML] on a reference that may be [null]: reading a property
    of [null] raises [TypeError]. *)
Definition get_innerHTML (r : option element) : JS jsstring :=
  match r with
  | Some e => ret (innerHTML e)
  | None => throw TypeError
  end.

(** Truthiness of a reference: [null] is falsy, every object truthy. *)
Definition truthy (r : option element) : bool :=
  match r with Some _ => true | None => false end.

(** *** Events *)

(** [document.addEventListener(type, f)] with a fresh function object
    [f]: the listener is appended, with [once] unset. *)
Definition document_addEventListener (ty : jsstring) (f : callback)
  : JS unit :=
  (document_method (lit "addEventListener") ;;
   fun w =>
     (Normal tt,
      World (document w) (listeners w ++ [Listener ty f false])
            (console w)))%js.

Definition listens (ty : jsstring) (l : listener) : bool :=
  JSString.eqb (type l) ty.

(** The listeners that stay registered after an event of type [ty]. *)
Definition remaining (ty : jsstring) (ls : list listener) : list listener :=
  filter (fun l => negb (listens ty l && once l)) ls.

Section Dispatch.

(** What calling a function object does. *)
Variable call : callback -> JS unit.

(** A listener is called; an exception it throws is reported on the
    console and does not stop the dispatch. *)
Definition invoke (l : listener) : JS unit := reporting (call (handler l)).

Fixpoint invoke_all (ls : list listener) : JS unit :=
  match ls with
  | [] => ret tt
  | l :: rest => (invoke l ;; invoke_all rest)%js
  end.

(** Firing an event of type [ty] at the document: the listeners of
    that type registered at that moment are called in order of
    registration; those registered with [once] are removed. *)
Definition fire (ty : jsstring) : JS unit :=
  fun w =>
    let called := filter (listens ty) (listeners w) in
    invoke_all called
      (World (document w) (remaining ty (listeners w)) (console w)).

End Dispatch.

End Host.

(** ** [main.js] *)

Module MainJs.

Import DOM Host.
Local Open Scope js_scope.

(** The body of the function passed to [addEventListener]. *)
Definition probe : JS unit :=
  console_log [VString (lit "Recipe app initialized successfully")] ;;
  mainContent <- document_querySelector (lit "main") ;;
  if truthy mainContent then
    html <- get_innerHTML mainContent ;;
    console_log [VString (lit "Main content found:");
                 VNumber (JSString.length html);
                 VString (lit "characters")]
  else
    console_error [VString (lit "Main content not found")].

Definition call (f : callback) : JS unit :=
  match f with ProbeListener => probe end.

(** The top level of the script. *)
Definition script : JS unit :=
  document_addEventListener (lit "DOMContentLoaded") ProbeListener.

(** The world the script starts in: no listener registered, nothing on
    the console. *)
Definition fresh (d : Document) : world := World d [] [].

(** The host fires [DOMContentLoaded] at the document. *)
Definition content_loaded : JS unit := fire call (lit "DOMContentLoaded").

(** A page load over the document [d]: the script is evaluated once, when
    the tree is built (a deferred script, or one at the end of the
    body), and an exception that escapes it is reported; then the host
    fires [DOMContentLoaded] once. *)
Definition page_load (d : Document) : world :=
  exec (reporting script ;; content_loaded) (fresh d).

(** The diagnostics of a page load. *)
Definition diagnostics (d : Document) : list entry := console (page_load d).

End MainJs.

(** ** What is observed of a run *)

Module Observe.

Import DOM Host MainJs.

Definition main_selector : selector := TypeSelector (lit "main").

(** The first [main] element of a document, and all of them. *)
Definition first_main (d : Document) : option element :=
  querySelector d main_selector.
Definition all_main (d : Document) : list element :=
  querySelectorAll d main_selector.

(** Whether an element in the document takes the place of
    [document.querySelector], of [document.addEventListener]. *)
Definition query_shadowed (d : Document) : bool :=
  has_named_property d (lit "querySelector").
Definition listen_shadowed (d : Document) : bool :=
  has_named_property d (lit "addEventListener").

(** Both methods of the document are the built-in ones. *)
Definition unshadowed (d : Document) : Prop :=
  listen_shadowed d = false /\ query_shadowed d = false.

(** The three console entries the listener can write. *)
Definition init_entry : entry :=
  Diagnostic Info [VString (lit "Recipe app initialized successfully")].
Definition found_entry (n : Z) : entry :=
  Diagnostic Info [VString (lit "Main content found:"); VNumber n;
                   VString (lit "characters")].
Definition missing_entry : entry :=
  Diagnostic Error [VString (lit "Main content not found")].

(** The entry that follows the initialisation entry when the query
    returns. *)
Definition outcome (d : Document) : entry :=
  match first_main d with
  | Some e => found_entry (JSString.length (innerHTML e))
  | None => missing_entry
  end.

(** The entries one call of the listener by the host leaves. *)
Definition listener_entries (d : Document) : list entry :=
  init_entry ::
  (if query_shadowed d then [Uncaught TypeError] else [outcome d]).

(** The observable summary of a document: whether it has a first [main]
    element and, if so, the length of its inner markup. *)
Definition summary (d : Document) : option Z :=
  option_map (fun e => JSString.length (innerHTML e)) (first_main d).

Definition is_number (n : Z) (v : value) : bool :=
  match v with VNumber m => Z.eqb m n | VString _ => false end.
Definition any_number (v : value) : bool :=
  match v with VNumber _ => true | VString _ => false end.

(** Informational entries that carry the number [n]. *)
Definition info_with (n : Z) (x : entry) : bool :=
  match x with
  | Diagnostic Info args => existsb (is_number n) args
  | _ => false
  end.

(** Informational entries that carry a number at all: those about the
    length of the content. *)
Definition about_length (x : entry) : bool :=
  match x with
  | Diagnostic Info args => existsb any_number args
  | _ => false
  end.

(** Error-level entries: calls of [console.error] and reports of
    uncaught exceptions. *)
Definition is_error (x : entry) : bool :=
  match x with
  | Diagnostic Error _ | Uncaught _ => true
  | Diagnostic Info _ => false
  end.

(** Error-level entries the script itself writes: calls of
    [console.error]. *)
Definition error_diagnostic (x : entry) : bool :=
  match x with
  | Diagnostic Error _ => true
  | _ => false
  end.

Definition count (p : entry -> bool) (l : list entry) : nat :=
  List.length (filter p l).

Definition value_eq_dec (a b : value) : {a = b} + {a <> b}.
Proof.
  decide equality;
    [apply (list_eq_dec N.eq_dec) | apply Z.eq_dec].
Defined.

Definition entry_eq_dec (a b : entry) : {a = b} + {a <> b}.
Proof.
  decide equality;
    [apply (list_eq_dec value_eq_dec) | decide equality | decide equality].
Defined.

(** How often an entry occurs on a console. *)
Definition occurrences (x : entry) (l : list entry) : nat :=
  count_occ entry_eq_dec l x.

(** The number of runs of the listener body a console records: each run
    writes the initialisation entry once, and nothing else writes it. *)
Definition runs (w : world) : nat := occurrences init_entry (console w).

Definition dom_content_loaded : jsstring := lit "DOMContentLoaded".

(** The listener the script registers. *)
Definition subscription : listener :=
  Listener dom_content_loaded ProbeListener false.


(** Sample documents. *)
Definition html_element (t : string) (a : list attribute) (k : list node)
  : element :=
  Element HTML None (lit t) None a k [] false.
Definition el (t : string) (k : list node) : node :=
  Elem (html_element t [] k).
Definition named (t n : string) (k : list node) : node :=
  Elem (html_element t [Attribute NoNamespace None (lit "name") (lit n)] k).
Definition page (body : list node) : Document :=
  [el "html" [el "head" []; el "body" body]].

(** [<main>Hello</main>] *)
Definition hello : Document := page [el "main" [Text (lit "Hello")]].
(** [<main><p>Soup</p></main>] *)
Definition soup : Document :=
  page [el "main" [el "p" [Text (lit "Soup")]]].
(** No [main] element. *)
Definition bare : Document := page [el "div" [Text (lit "Soup")]].
(** Two [main] elements, the first nested deeper than the second. *)
Definition twice : Document :=
  page [el "div" [el "main" [Text (lit "first")]];
        el "main" [el "b" [Text (lit "second")]]].
(** [<main><br>x</main>] *)
Definition broken_line : Document :=
  page [el "main" [el "br" []; Text (lit "x")]].
(** A [main] element whose child is a [p] with the attribute [title] of
    value [a<b>c]. *)
Definition titled : element :=
  html_element "main"
    [] [Elem (html_element "p"
                [Attribute NoNamespace None (lit "title") (lit "a<b>c")]
                [])].
(** A [main] element whose child is an SVG [svg] holding an SVG [style]
    with the text [a&b]. *)
Definition styled : element :=
  html_element "main"
    [] [Elem (Element SVG None (lit "svg") None []
                [Elem (Element SVG None (lit "style") None []
                         [Text (lit "a&b")] [] false)] [] false)].
(** A [main] element whose child is a [template] with the contents
    [<b>x</b>]. *)
Definition templated : element :=
  html_element "main"
    [] [Elem (Element HTML None (lit "template") None [] []
                [el "b" [Text (lit "x")]] false)].
(** [<main>] with one character outside the basic plane, U+1F372. *)
Definition stew : Document := page [el "main" [Text [55356%N; 57202%N]]].
(** [<form name="querySelector"></form><main>Hello</main>] *)
Definition shadowed_hello : Document :=
  page [named "form" "querySelector" []; el "main" [Text (lit "Hello")]].
(** [<img name="querySelector"><div>Soup</div>], no [main] element. *)
Definition shadowed_bare : Document :=
  page [named "img" "querySelector" []; el "div" [Text (lit "Soup")]].
(** [twice] with a [<form name="querySelector">] in front. *)
Definition shadowed_twice : Document :=
  page [named "form" "querySelector" [];
        el "div" [el "main" [Text (lit "first")]];
        el "main" [el "b" [Text (lit "second")]]].
(** [<img name="addEventListener"><main>Hello</main>] *)
Definition unlistenable : Document :=
  page [named "img" "addEventListener" []; el "main" [Text (lit "Hello")]].

End Observe.

(** ** The properties as the specification words them *)

Module Stated.

Import DOM Host MainJs Observe.

(** Every [main] element of the document, and not only the first, has
    the length of its inner markup carried by exactly one informational
    entry of the page load. *)
Definition every_main_reported (d : Document) : Prop :=
  forall (e : element) (L : Z),
    In e (elements d) -> localName e = lit "main" ->
    JSString.length (innerHTML e) = L ->
    count (info_with L) (diagnostics d) = 1.

(** Without a [main] element the probe writes exactly one error-level
    entry and none about a length. *)
Definition absence_reported (d : Document) : Prop :=
  (forall e, In e (elements d) -> localName e <> lit "main") ->
  count error_diagnostic (diagnostics d) = 1 /\
  count about_length (diagnostics d) = 0.

(** The number reported is the number of characters of the inner markup
    of the element found. *)
Definition character_count_reported (d : Document) : Prop :=
  forall e, first_main d = Some e ->
    In (found_entry (JSString.character_count (innerHTML e)))
       (diagnostics d).

(** The initialisation entry is first and occurs once. *)
Definition init_first_once (d : Document) : Prop :=
  hd_error (diagnostics d) = Some init_entry /\
  occurrences init_entry (diagnostics d) = 1.


(** With two or more [main] elements the length of the first is
    reported. *)
Definition first_of_many_reported (d : Document) : Prop :=
  forall m1 m2 rest, all_main d = m1 :: m2 :: rest ->
    In (found_entry (JSString.length (innerHTML m1))) (diagnostics d).

(** A run of the body writes two entries. *)
Definition two_entries (w : world) : Prop :=
  List.length (console (exec probe w)) = List.length (console w) + 2.

(** The summary alone decides the entries. *)
Definition summary_decides (d1 d2 : Document) : Prop :=
  summary d1 = summary d2 -> diagnostics d1 = diagnostics d2.

End Stated.

(** ** Repeated inclusion and repeated firing *)

Module Repeat.

Import DOM Host MainJs Observe.

(** The world after the script has been evaluated [k] times over the
    document [d], as when the page includes it [k] times: each evaluation
    creates its own function object and registers it. *)
Definition included (k : nat) (d : Document) : world :=
  Nat.iter k (exec (reporting script)) (fresh d).

(** The host fires [DOMContentLoaded] [n] times. *)
Definition fired (n : nat) (w : world) : world :=
  Nat.iter n (exec content_loaded) w.

(** The entries of [n] calls of the listener. *)
Definition reports (n : nat) (d : Document) : list entry :=
  List.concat (repeat (listener_entries d) n).

End Repeat.

(** ** Properties of strings *)

Module JSStringFacts.

Import JSString.

Lemma eqb_spec (a b : t) : reflect (a = b) (eqb a b).
Proof.
  revert b; induction a as [|x a IH]; intros [|y b]; simpl;
    try (constructor; congruence).
  destruct (N.eqb_spec x y) as [->|Hxy]; simpl.
  - destruct (IH b) as [->|Hab]; constructor; congruence.
  - constructor; congruence.
Qed.

Lemma length_nonneg (s : t) : (0 <= length s)%Z.
Proof. unfold length; lia. Qed.

Lemma length_app (a b : t) : length (a ++ b) = (length a + length b)%Z.
Proof. unfold length; rewrite List.length_app; lia. Qed.

Lemma length_cons (c : code_unit) (s : t) :
  length (c :: s) = (1 + length s)%Z.
Proof. unfold length. cbn [List.length]. lia. Qed.

Lemma occurs_cons (c x : code_unit) (s : t) :
  occurs c (x :: s) = ((if N.eqb x c then 1 else 0) + occurs c s)%Z.
Proof.
  unfold occurs. cbn [count_occ].
  destruct (N.eq_dec x c) as [->|Hne].
  - rewrite N.eqb_refl. lia.
  - apply N.eqb_neq in Hne. rewrite Hne. lia.
Qed.

(** Without a high surrogate every code unit is a character. *)
Lemma character_count_length (s : t) :
  forallb (fun c => negb (is_high_surrogate c)) s = true ->
  character_count s = length s.
Proof.
  induction s as [|c r IH]; intros H; [reflexivity|].
  cbn [forallb] in H. apply andb_true_iff in H. destruct H as [Hc Hr].
  apply negb_true_iff in Hc. specialize (IH Hr).
  rewrite length_cons. cbn [character_count]. rewrite Hc. cbn [andb].
  destruct r as [|c' r']; [reflexivity|]. now rewrite IH.
Qed.

End JSStringFacts.

(** ** Properties of the host operations *)

Module HostFacts.

Import DOM Host MainJs Observe.

Lemma parse_main : parse_selector (lit "main") = Some main_selector.
Proof. reflexivity. Qed.

Lemma matches_main (e : element) :
  matches main_selector e = true <-> localName e = lit "main".
Proof.
  unfold matches, main_selector.
  change (map to_lower (lit "main")) with (lit "main").
  destruct (is_html_namespace (namespaceURI e));
    destruct (JSStringFacts.eqb_spec (lit "main") (localName e)); split;
    congruence.
Qed.

(** The element the query returns is an element of the document named
    [main]. *)
Lemma first_main_some (d : Document) (e : element) :
  first_main d = Some e -> In e (elements d) /\ localName e = lit "main".
Proof.
  intros H. apply find_some in H. destruct H as [Hin Hm].
  split; [exact Hin | now apply matches_main].
Qed.

Lemma first_main_none (d : Document) :
  first_main d = None <->
  (forall e, In e (elements d) -> localName e <> lit "main").
Proof.
  unfold first_main, querySelector. split.
  - intros H e Hin Htag.
    pose proof (find_none _ _ H e Hin) as Hf.
    apply matches_main in Htag. congruence.
  - intros H. destruct (find _ _) as [e|] eqn:Hf; [|reflexivity].
    apply find_some in Hf. destruct Hf as [Hin Hm].
    apply matches_main in Hm. now destruct (H e Hin).
Qed.

(** The query returns the head of the list of all matches. *)
Lemma find_head_filter {A} (p : A -> bool) (l : list A) :
  find p l = hd_error (filter p l).
Proof.
  induction l as [|x l IH]; simpl; [reflexivity|].
  destruct (p x); [reflexivity | exact IH].
Qed.

Lemma first_main_head (d : Document) :
  first_main d = hd_error (all_main d).
Proof. apply find_head_filter. Qed.

(** An element named [main] is no void element, no [template] and no
    raw text element, in whatever namespace it is. *)
Lemma main_ordinary (e : element) :
  localName e = lit "main" ->
  serializes_as_void e = false /\ is_template e = false /\
  raw_text_parent true e = false.
Proof.
  intros H.
  unfold serializes_as_void, is_template, raw_text_parent, html_one_of.
  rewrite H. destruct (is_html_namespace (namespaceURI e)); repeat split.
Qed.

Lemma main_innerHTML (e : element) :
  localName e = lit "main" ->
  innerHTML e = flat_map (serialize_child true false) (childNodes e).
Proof.
  intros H. destruct (main_ordinary e H) as [Hv [Ht Hr]].
  unfold innerHTML. destruct e as [n p l i a k c f].
  cbn [serialize_fragment childNodes]. now rewrite Hv, Ht, Hr.
Qed.

Lemma main_outerHTML (e : element) :
  localName e = lit "main" ->
  outerHTML e = start_tag e ++ innerHTML e ++ end_tag e.
Proof.
  intros H. destruct (main_ordinary e H) as [Hv _].
  unfold outerHTML, innerHTML. cbn [serialize_child]. now rewrite Hv.
Qed.

Ltac escaped_case :=
  repeat match goal with
         | |- context [N.eqb ?a ?b] =>
             let v := eval vm_compute in (N.eqb a b) in
             change (N.eqb a b) with v
         end;
  repeat match goal with
         | |- context [JSString.length (lit ?x)] =>
             let v := eval vm_compute in (JSString.length (lit x)) in
             change (JSString.length (lit x)) with v
         end;
  repeat match goal with
         | |- context [JSString.length [?c]] =>
             change (JSString.length [c]) with 1%Z
         end;
  cbv beta iota; lia.

(** The length of escaped text: each [&] adds four code units, each
    no-break space five, each [<] and [>] three. *)
Lemma escape_text_length (s : jsstring) :
  JSString.length (escape false s) =
    (JSString.length s + 4 * JSString.occurs ampersand s
     + 5 * JSString.occurs no_break_space s
     + 3 * JSString.occurs less_than s
     + 3 * JSString.occurs greater_than s)%Z.
Proof.
  induction s as [|c s IH]; [reflexivity|].
  unfold escape in *. cbn [flat_map].
  rewrite JSStringFacts.length_app, IH, JSStringFacts.length_cons.
  rewrite !JSStringFacts.occurs_cons.
  unfold escape_unit, ampersand, no_break_space, less_than, greater_than.
  cbn [andb].
  destruct (N.eqb c 38) eqn:E1;
    [apply N.eqb_eq in E1; subst c; escaped_case|].
  destruct (N.eqb c 160) eqn:E2;
    [apply N.eqb_eq in E2; subst c; escaped_case|].
  destruct (N.eqb c 60) eqn:E3;
    [apply N.eqb_eq in E3; subst c; escaped_case|].
  destruct (N.eqb c 62) eqn:E4;
    [apply N.eqb_eq in E4; subst c; escaped_case|].
  escaped_case.
Qed.

End HostFacts.

(** ** How the script runs *)

Module Run.

Import DOM Host MainJs Observe HostFacts.
Local Open Scope js_scope.

(** One run of the listener body.  It writes the initialisation entry;
    then, when an element takes the place of [document.querySelector],
    the call throws, and otherwise the body writes the outcome and
    completes normally.  Document and listeners stay as they are. *)
Lemma probe_run (w : world) :
  probe w =
    if query_shadowed (document w)
    then (Throw TypeError,
          World (document w) (listeners w) (console w ++ [init_entry]))
    else (Normal tt,
          World (document w) (listeners w)
                (console w ++ [init_entry; outcome (document w)])).
Proof.
  unfold probe, bind, console_log, console_error, emit,
    document_querySelector, document_method, bind, outcome, first_main,
    query_shadowed.
  cbn [document listeners console].
  destruct (has_named_property (document w) (lit "querySelector"));
    [reflexivity|].
  rewrite parse_main. cbn [document listeners console].
  destruct (querySelector (document w) main_selector) as [e|];
    cbn [truthy get_innerHTML ret document listeners console];
    rewrite <- app_assoc; reflexivity.
Qed.

Lemma probe_exec (w : world) :
  query_shadowed (document w) = false ->
  exec probe w =
    World (document w) (listeners w)
          (console w ++ [init_entry; outcome (document w)]).
Proof. intros H. unfold exec. now rewrite probe_run, H. Qed.

Lemma probe_result (w : world) :
  result probe w =
    if query_shadowed (document w) then Throw TypeError else Normal tt.
Proof.
  unfold result. rewrite probe_run.
  now destruct (query_shadowed (document w)).
Qed.

Lemma probe_frame (w : world) :
  document (exec probe w) = document w /\
  listeners (exec probe w) = listeners w.
Proof.
  unfold exec. rewrite probe_run.
  now destruct (query_shadowed (document w)).
Qed.

(** The host calling the body: the exception, if any, is reported. *)
Lemma reporting_probe (w : world) :
  reporting probe w =
    (Normal tt,
     World (document w) (listeners w)
           (console w ++ listener_entries (document w))).
Proof.
  unfold reporting, listener_entries. rewrite probe_run.
  destruct (query_shadowed (document w)); [|reflexivity].
  unfold emit. cbn [document listeners console].
  now rewrite <- app_assoc.
Qed.

(** The script itself only registers the listener, or throws when an
    element takes the place of [document.addEventListener]. *)
Lemma script_run (w : world) :
  script w =
    if listen_shadowed (document w)
    then (Throw TypeError, w)
    else (Normal tt,
          World (document w) (listeners w ++ [subscription]) (console w)).
Proof.
  unfold script, document_addEventListener, document_method, bind,
    listen_shadowed.
  now destruct (has_named_property (document w) (lit "addEventListener")).
Qed.


Lemma reporting_script (w : world) :
  exec (reporting script) w =
    if listen_shadowed (document w)
    then World (document w) (listeners w) (console w ++ [Uncaught TypeError])
    else World (document w) (listeners w ++ [subscription]) (console w).
Proof.
  unfold exec, reporting. rewrite script_run.
  now destruct (listen_shadowed (document w)).
Qed.

(** Calling the registered listener is running the body. *)
Lemma invoke_subscription (w : world) :
  invoke call subscription w = reporting probe w.
Proof. reflexivity. Qed.

(** Firing the event in a world whose only listener is the one the
    script registered calls the body once and keeps the listener. *)
Lemma content_loaded_run (d : Document) (c : list entry) :
  content_loaded (World d [subscription] c) =
    (Normal tt, World d [subscription] (c ++ listener_entries d)).
Proof.
  unfold content_loaded, fire. cbn [listeners document console].
  change (filter (listens (lit "DOMContentLoaded")) [subscription])
    with [subscription].
  change (remaining (lit "DOMContentLoaded") [subscription])
    with [subscription].
  cbn [invoke_all]. unfold bind. rewrite invoke_subscription.
  rewrite reporting_probe. reflexivity.
Qed.

(** The page load, in all three cases. *)
Lemma page_load_eq (d : Document) :
  page_load d =
    if listen_shadowed d then World d [] [Uncaught TypeError]
    else World d [subscription] (listener_entries d).
Proof.
  unfold page_load, exec, bind.
  pose proof (reporting_script (fresh d)) as Hs. unfold exec in Hs.
  destruct (reporting script (fresh d)) as [[u|x] w1] eqn:E.
  - cbn [snd] in Hs. subst w1. cbn [fresh document listeners console].
    destruct (listen_shadowed d); cbn [app].
    + reflexivity.
    + now rewrite content_loaded_run.
  - exfalso. unfold reporting in E.
    destruct (script (fresh d)) as [[u|y] w2]; discriminate E.
Qed.

Lemma diagnostics_eq (d : Document) :
  unshadowed d -> diagnostics d = [init_entry; outcome d].
Proof.
  intros [Hl Hq]. unfold diagnostics.
  rewrite page_load_eq, Hl. unfold listener_entries. now rewrite Hq.
Qed.

Lemma diagnostics_query_shadowed (d : Document) :
  listen_shadowed d = false -> query_shadowed d = true ->
  diagnostics d = [init_entry; Uncaught TypeError].
Proof.
  intros Hl Hq. unfold diagnostics.
  rewrite page_load_eq, Hl. unfold listener_entries. now rewrite Hq.
Qed.

Lemma diagnostics_listen_shadowed (d : Document) :
  listen_shadowed d = true -> diagnostics d = [Uncaught TypeError].
Proof.
  intros Hl. unfold diagnostics. now rewrite page_load_eq, Hl.
Qed.

Lemma outcome_found (d : Document) (e : element) :
  first_main d = Some e ->
  outcome d = found_entry (JSString.length (innerHTML e)).
Proof. unfold outcome. now intros ->. Qed.

Lemma outcome_missing (d : Document) :
  first_main d = None -> outcome d = missing_entry.
Proof. unfold outcome. now intros ->. Qed.

Lemma outcome_not_init (d : Document) : outcome d <> init_entry.
Proof. unfold outcome. destruct (first_main d); discriminate. Qed.

Lemma outcome_summary (d1 d2 : Document) :
  summary d1 = summary d2 <-> outcome d1 = outcome d2.
Proof.
  unfold summary, outcome.
  destruct (first_main d1), (first_main d2); cbn [option_map]; split;
    intros H; inversion H; congruence.
Qed.

(** Repeated runs of the body leave the document and the listeners
    alone. *)
Lemma probe_iter_frame (n : nat) (w : world) :
  document (Nat.iter n (exec probe) w) = document w /\
  listeners (Nat.iter n (exec probe) w) = listeners w.
Proof.
  induction n as [|n [IHd IHl]]; [now split|].
  rewrite Nat.iter_succ.
  destruct (probe_frame (Nat.iter n (exec probe) w)) as [Hd Hl].
  split; congruence.
Qed.

End Run.

(** ** Frame and counting lemmas *)

Module Frame.

Import DOM Host MainJs Observe HostFacts Run.

(** Calling listeners, whichever are registered, leaves the document
    alone. *)
Lemma invoke_document (l : listener) (w : world) :
  document (exec (invoke call l) w) = document w.
Proof.
  unfold exec, invoke. destruct l as [ty [] o]. cbn [handler call].
  rewrite reporting_probe. reflexivity.
Qed.

Lemma invoke_all_document (ls : list listener) (w : world) :
  document (exec (invoke_all call ls) w) = document w.
Proof.
  revert w. induction ls as [|l ls IH]; intros w; [reflexivity|].
  cbn [invoke_all]. unfold exec, bind.
  pose proof (invoke_document l w) as Hl. unfold exec in Hl.
  destruct (invoke call l w) as [[u|x] w1]; cbn [snd] in *.
  - rewrite <- Hl. apply IH.
  - exact Hl.
Qed.

Lemma content_loaded_document (w : world) :
  document (exec content_loaded w) = document w.
Proof.
  unfold content_loaded, fire, exec.
  exact (invoke_all_document _ (World _ _ _)).
Qed.

Lemma content_loaded_iter_document (n : nat) (w : world) :
  document (Nat.iter n (exec content_loaded) w) = document w.
Proof.
  induction n as [|n IH]; [reflexivity|].
  now rewrite Nat.iter_succ, content_loaded_document.
Qed.



Lemma occurrences_app (x : entry) (a b : list entry) :
  occurrences x (a ++ b) = occurrences x a + occurrences x b.
Proof. apply count_occ_app. Qed.

Lemma occurrences_pair (d : Document) :
  occurrences init_entry [init_entry; outcome d] = 1.
Proof.
  unfold occurrences.
  rewrite count_occ_cons_eq by reflexivity.
  rewrite count_occ_cons_neq by apply outcome_not_init.
  reflexivity.
Qed.

Lemma occurrences_listener_entries (d : Document) :
  occurrences init_entry (listener_entries d) = 1.
Proof.
  unfold listener_entries.
  destruct (query_shadowed d); [|apply occurrences_pair].
  unfold occurrences.
  rewrite count_occ_cons_eq by reflexivity.
  rewrite count_occ_cons_neq by discriminate.
  reflexivity.
Qed.



End Frame.

(** ** Several listeners, several firings *)

Module RepeatFacts.

Import DOM Host MainJs Observe HostFacts Run Frame Repeat.

Lemma listens_subscription (ty : jsstring) :
  listens ty subscription = true <-> ty = dom_content_loaded.
Proof.
  unfold listens. cbn [type subscription].
  destruct (JSStringFacts.eqb_spec dom_content_loaded ty); split;
    congruence.
Qed.

Lemma filter_subscriptions (k : nat) :
  filter (listens dom_content_loaded) (repeat subscription k) =
    repeat subscription k.
Proof.
  induction k as [|k IH]; [reflexivity|].
  cbn [repeat filter].
  replace (listens dom_content_loaded subscription) with true
    by reflexivity.
  now rewrite IH.
Qed.

Lemma remaining_subscriptions (ty : jsstring) (k : nat) :
  remaining ty (repeat subscription k) = repeat subscription k.
Proof.
  induction k as [|k IH]; [reflexivity|].
  unfold remaining in *. cbn [repeat filter once subscription].
  rewrite andb_false_r. cbn [negb]. now rewrite IH.
Qed.

Lemma included_eq (k : nat) (d : Document) :
  listen_shadowed d = false ->
  included k d = World d (repeat subscription k) [].
Proof.
  intros H. unfold included. induction k as [|k IH]; [reflexivity|].
  rewrite Nat.iter_succ, IH, reporting_script.
  cbn [document listeners console]. rewrite H.
  now rewrite <- repeat_cons.
Qed.

Lemma reports_succ (n : nat) (d : Document) :
  reports (S n) d = listener_entries d ++ reports n d.
Proof. reflexivity. Qed.

Lemma reports_add (n m : nat) (d : Document) :
  reports (n + m) d = reports n d ++ reports m d.
Proof. unfold reports. now rewrite repeat_app, concat_app. Qed.

(** Calling [k] registered copies of the listener is [k] calls of the
    body, one after the other. *)
Lemma invoke_all_subscriptions (k : nat) (d : Document)
    (ls : list listener) (c : list entry) :
  invoke_all call (repeat subscription k) (World d ls c) =
    (Normal tt, World d ls (c ++ reports k d)).
Proof.
  revert c. induction k as [|k IH]; intros c.
  - cbn [repeat invoke_all]. unfold ret, reports. cbn [repeat concat].
    now rewrite app_nil_r.
  - cbn [repeat invoke_all]. unfold bind.
    rewrite invoke_subscription, reporting_probe.
    cbn [document listeners console]. rewrite IH, reports_succ.
    now rewrite <- app_assoc.
Qed.

Lemma content_loaded_subscriptions (k : nat) (d : Document)
    (c : list entry) :
  exec content_loaded (World d (repeat subscription k) c) =
    World d (repeat subscription k) (c ++ reports k d).
Proof.
  unfold exec, content_loaded, fire. cbn [document listeners console].
  change (lit "DOMContentLoaded") with dom_content_loaded.
  rewrite filter_subscriptions, remaining_subscriptions.
  now rewrite invoke_all_subscriptions.
Qed.

Lemma fired_subscriptions (n k : nat) (d : Document) (c : list entry) :
  fired n (World d (repeat subscription k) c) =
    World d (repeat subscription k) (c ++ reports (n * k) d).
Proof.
  unfold fired. induction n as [|n IH].
  - cbn [Nat.mul]. unfold reports. cbn [repeat concat Nat.iter nat_rect].
    now rewrite app_nil_r.
  - rewrite Nat.iter_succ, IH, content_loaded_subscriptions.
    rewrite <- app_assoc, <- reports_add.
    replace (n * k + k) with (S n * k) by lia. reflexivity.
Qed.

Lemma occurrences_reports (n : nat) (d : Document) :
  occurrences init_entry (reports n d) = n.
Proof.
  induction n as [|n IH]; [reflexivity|].
  rewrite reports_succ, occurrences_app.
  rewrite occurrences_listener_entries, IH. reflexivity.
Qed.

End RepeatFacts.

(** ** Named elements and the named properties of the document *)

Module NamedFacts.

Import DOM Host MainJs Observe HostFacts Run.

Section TreeInduction.

Variables (P : node -> Prop) (Q : element -> Prop).
Hypothesis text_case : forall d, P (Text d).
Hypothesis comment_case : forall d, P (Comment d).
Hypothesis instruction_case : forall t d, P (ProcessingInstruction t d).
Hypothesis elem_case : forall e, Q e -> P (Elem e).
Hypothesis element_case :
  forall n p l i a k c f, Forall P k -> Q (Element n p l i a k c f).

(** Induction over the tree, the children of an element as a list. *)
Fixpoint node_tree_ind (x : node) : P x :=
  match x with
  | Text d => text_case d
  | Comment d => comment_case d
  | ProcessingInstruction t d => instruction_case t d
  | Elem e => elem_case e (element_tree_ind e)
  end
with element_tree_ind (e : element) : Q e :=
  match e with
  | Element n p l i a k c f =>
      element_case n p l i a k c f
        ((fix children_ind (k : list node) : Forall P k :=
            match k with
            | [] => Forall_nil P
            | x :: r => Forall_cons x (node_tree_ind x) (children_ind r)
            end) k)
  end.

End TreeInduction.

Lemma html_one_of_split (a b c : string) (e : element) :
  html_one_of [a; b; c] e = html_one_of [a; b] e || html_one_of [c] e.
Proof.
  unfold html_one_of, one_of. cbn [existsb].
  destruct (is_html_namespace (namespaceURI e)); [|reflexivity].
  cbn [andb]. now rewrite !orb_false_r, orb_assoc.
Qed.

(** A [form], [iframe] or [img] with a non-empty [name] contributes that
    name, whatever is above it. *)
Lemma named_contributes (under : bool) (e : element) (c : N)
    (s : jsstring) :
  html_one_of ["form"; "iframe"; "img"]%string e = true ->
  content_attribute "name" e = Some (c :: s) ->
  In (c :: s) (contributed_names under e).
Proof.
  intros Hk Hn. rewrite html_one_of_split in Hk.
  unfold contributed_names. rewrite Hn. cbn [non_empty].
  destruct (html_one_of ["form"; "iframe"]%string e); [now left|].
  cbn [orb] in Hk. rewrite Hk. apply in_or_app. right. now left.
Qed.

Lemma names_of_descendants (e : element) (nm : jsstring) :
  (forall under, In nm (contributed_names under e)) ->
  forall e0 under,
    In e (inclusive_descendants e0) -> In nm (element_names under e0).
Proof.
  intros Hc e0.
  apply (element_tree_ind
           (fun x => forall under,
                In e (node_elements x) -> In nm (node_names under x))
           (fun e0 => forall under,
                In e (inclusive_descendants e0) ->
                In nm (element_names under e0))).
  - intros d under [].
  - intros d under [].
  - intros t d under [].
  - intros e1 IH under H. exact (IH under H).
  - intros n p l i a k c f IH under H.
    cbn [inclusive_descendants] in H. cbn [element_names].
    apply in_or_app. destruct H as [<-|H]; [left; apply Hc|right].
    apply in_flat_map in H. destruct H as [x [Hx He]].
    apply in_flat_map. exists x. split; [exact Hx|].
    rewrite Forall_forall in IH. now apply IH.
Qed.

(** A [form], [iframe] or [img] element anywhere in the document with a
    non-empty [name] makes that name a named property of the document. *)
Lemma named_element_property (d : Document) (e : element) (c : N)
    (s : jsstring) :
  In e (elements d) ->
  html_one_of ["form"; "iframe"; "img"]%string e = true ->
  content_attribute "name" e = Some (c :: s) ->
  has_named_property d (c :: s) = true.
Proof.
  intros Hin Hk Hn. unfold has_named_property, property_names.
  apply existsb_exists. exists (c :: s). split.
  - unfold elements in Hin. apply in_flat_map in Hin.
    destruct Hin as [x [Hx He]].
    apply in_flat_map. exists x. split; [exact Hx|].
    destruct x as [t|t|t u|e0]; try destruct He.
    cbn [node_elements] in He. cbn [node_names].
    apply (names_of_descendants e); [|exact He].
    intros under. now apply named_contributes.
  - destruct (JSStringFacts.eqb_spec (c :: s) (c :: s)); congruence.
Qed.

End NamedFacts.

(** ** The properties of the probe *)

Import DOM Host MainJs Observe Stated HostFacts Run Frame.
Local Open Scope js_scope.

(** C1, as stated, fails for a [main] element that is not the first: in
    [twice] the second [main] element has inner markup [<b>second</b>] of
    length 13, and no entry of the page load carries 13.  It fails as
    well when a [<form name="querySelector">] takes the place of the
    query method: the call throws and no entry carries the length 5 of
    [<main>Hello</main>]. *)
Lemma second_main_not_reported :
  ~ every_main_reported twice /\ ~ every_main_reported shadowed_hello.
Proof.
  split; intros H.
  - assert (Hin : In (html_element "main" [] [el "b" [Text (lit "second")]])
                     (elements twice))
      by (simpl; do 5 right; left; reflexivity).
    specialize (H _ 13%Z Hin eq_refl eq_refl).
    assert (Hn : count (info_with 13) (diagnostics twice) = 0)
      by reflexivity.
    rewrite Hn in H. discriminate H.
  - assert (Hin : In (html_element "main" [] [Text (lit "Hello")])
                     (elements shadowed_hello))
      by (simpl; do 4 right; left; reflexivity).
    specialize (H _ 5%Z Hin eq_refl eq_refl).
    assert (Hn : count (info_with 5) (diagnostics shadowed_hello) = 0)
      by reflexivity.
    rewrite Hn in H. discriminate H.
Qed.

(** C1, amended. On a page load over a document in which no element
    takes the place of [document.addEventListener] or
    [document.querySelector], and whose first [main] element in tree
    order has inner markup of length [L], [L] is not negative and exactly
    one informational entry of the console carries the number [L]: the
    entry ['Main content found:', L, 'characters']. *)
Theorem found_reports_length_once (d : Document) (e : element) (L : Z) :
  unshadowed d ->
  first_main d = Some e ->
  JSString.length (innerHTML e) = L ->
  (0 <= L)%Z /\
  count (info_with L) (diagnostics d) = 1 /\
  In (found_entry L) (diagnostics d).
Proof.
  intros Hu Hq HL. rewrite (diagnostics_eq d Hu), (outcome_found d _ Hq), HL.
  split; [rewrite <- HL; apply JSStringFacts.length_nonneg|].
  split; [|right; left; reflexivity].
  unfold count, init_entry, found_entry.
  cbn [filter info_with existsb is_number orb].
  rewrite Z.eqb_refl. reflexivity.
Qed.

Lemma found_reports_length_once_witness :
  first_main hello = Some (html_element "main" [] [Text (lit "Hello")]) /\
  count (info_with 5) (diagnostics hello) = 1.
Proof.
  split; [reflexivity|].
  exact (proj1 (proj2
    (found_reports_length_once hello
       (html_element "main" [] [Text (lit "Hello")]) 5%Z
       (conj eq_refl eq_refl) eq_refl eq_refl))).
Defined.

(** C2, as stated, fails when an element takes the place of the query
    method: [<img name="querySelector"><div>Soup</div>] has no [main]
    element, the call of [document.querySelector] throws, and the probe
    writes no error-level entry; the console holds the initialisation
    entry and the host's report of the exception. *)
Lemma absent_main_unreported :
  ~ absence_reported shadowed_bare /\
  diagnostics shadowed_bare = [init_entry; Uncaught TypeError].
Proof.
  split; [|reflexivity].
  intros H.
  assert (Hno : forall e, In e (elements shadowed_bare) ->
                          localName e <> lit "main").
  { intros e He. simpl in He.
    repeat (destruct He as [<-|He]; [discriminate|]). destruct He. }
  destruct (H Hno) as [H1 _].
  assert (Hn : count error_diagnostic (diagnostics shadowed_bare) = 0)
    by reflexivity.
  rewrite Hn in H1. discriminate H1.
Qed.

(** C2, amended. On a page load over a document with no element named
    [main], in which no element takes the place of
    [document.addEventListener] or [document.querySelector], the console
    holds exactly one error-level entry, written by [console.error], and
    no informational entry about a content length: it is the
    initialisation entry followed by the error
    ['Main content not found']. *)
Theorem missing_reports_error_once (d : Document) :
  unshadowed d ->
  (forall e, In e (elements d) -> localName e <> lit "main") ->
  count is_error (diagnostics d) = 1 /\
  count error_diagnostic (diagnostics d) = 1 /\
  count about_length (diagnostics d) = 0 /\
  diagnostics d = [init_entry; missing_entry].
Proof.
  intros Hu H. apply first_main_none in H.
  rewrite (diagnostics_eq d Hu), (outcome_missing d H).
  repeat split.
Qed.

Lemma missing_reports_error_once_witness :
  count is_error (diagnostics bare) = 1 /\
  count about_length (diagnostics bare) = 0.
Proof.
  assert (H : forall e, In e (elements bare) -> localName e <> lit "main").
  { intros e He. simpl in He.
    repeat (destruct He as [<-|He]; [discriminate|]). destruct He. }
  destruct (missing_reports_error_once bare (conj eq_refl eq_refl) H)
    as [H1 [_ [H2 _]]].
  exact (conj H1 H2).
Defined.

(** C3, as stated, fails on the unit: the inner markup of the [main]
    element of [stew] is one character, U+1F372, and the probe reports
    2, the number of UTF-16 code units.  It fails as well when a
    [<form name="querySelector">] takes the place of the query method:
    the [main] element is there and no length is reported. *)
Lemma characters_not_counted :
  ~ character_count_reported stew /\
  diagnostics stew = [init_entry; found_entry 2] /\
  ~ character_count_reported shadowed_hello.
Proof.
  split; [|split; [reflexivity|]]; intros H.
  - specialize (H (html_element "main" [] [Text [55356%N; 57202%N]])
                  eq_refl).
    simpl in H. destruct H as [H|[H|[]]]; discriminate H.
  - specialize (H (html_element "main" [] [Text (lit "Hello")]) eq_refl).
    simpl in H. destruct H as [H|[H|[]]]; discriminate H.
Qed.

(** C3, amended. When the query finds a [main] element, and no element
    takes the place of [document.addEventListener] or
    [document.querySelector], the number the probe reports is the length
    in UTF-16 code units of the element's [innerHTML]: the serialisation
    of its children alone, to which the element's own start and end tag
    add nothing.  It is the number of characters when the markup holds
    no high surrogate.  For a single text child it is the length of the
    text plus four for each [&], five for each no-break space and three
    for each [<] and [>].  For [<main><p>Soup</p></main>] the number is
    11; an attribute value is escaped, [<] and [>] included (27 for
    [titled]); the text of an SVG [style] is escaped (33 for [styled]);
    a [template] is serialised from its contents (29 for
    [templated]). *)
Theorem reported_length_is_inner_markup :
  (forall (d : Document) (e : element),
      unshadowed d ->
      first_main d = Some e ->
      diagnostics d =
        [init_entry; found_entry (JSString.length (innerHTML e))] /\
      innerHTML e = flat_map (serialize_child true false) (childNodes e) /\
      JSString.length (outerHTML e) =
        (JSString.length (start_tag e) + JSString.length (innerHTML e) +
         JSString.length (end_tag e))%Z /\
      (forallb (fun c => negb (JSString.is_high_surrogate c)) (innerHTML e)
         = true ->
       JSString.length (innerHTML e)
         = JSString.character_count (innerHTML e)) /\
      (forall t, childNodes e = [Text t] ->
         JSString.length (innerHTML e) =
           (JSString.length t + 4 * JSString.occurs ampersand t
            + 5 * JSString.occurs no_break_space t
            + 3 * JSString.occurs less_than t
            + 3 * JSString.occurs greater_than t)%Z)) /\
  innerHTML (html_element "main" [] [el "p" [Text (lit "Soup")]])
    = lit "<p>Soup</p>" /\
  diagnostics soup = [init_entry; found_entry 11] /\
  diagnostics (page [Elem titled]) = [init_entry; found_entry 27] /\
  diagnostics (page [Elem styled]) = [init_entry; found_entry 33] /\
  diagnostics (page [Elem templated]) = [init_entry; found_entry 29].
Proof.
  split; [|repeat split].
  intros d e Hu Hq. destruct (first_main_some d e Hq) as [_ Htag].
  split; [rewrite (diagnostics_eq d Hu), (outcome_found d _ Hq);
          reflexivity|].
  split; [exact (main_innerHTML e Htag)|].
  split.
  { rewrite (main_outerHTML e Htag).
    rewrite !JSStringFacts.length_app. lia. }
  split.
  { intros H. symmetry. now apply JSStringFacts.character_count_length. }
  intros t Ht. rewrite (main_innerHTML e Htag), Ht.
  cbn [flat_map serialize_child]. rewrite app_nil_r.
  apply escape_text_length.
Qed.

Lemma reported_length_is_inner_markup_witness :
  diagnostics twice = [init_entry; found_entry 5].
Proof.
  exact (proj1 (proj1 reported_length_is_inner_markup twice
                  (html_element "main" [] [Text (lit "first")])
                  (conj eq_refl eq_refl) eq_refl)).
Defined.

(** C4, as stated, fails when an element takes the place of
    [document.addEventListener]: over
    [<img name="addEventListener"><main>Hello</main>] the script throws
    at its top level, no listener is registered and the initialisation
    entry is never written. *)
Lemma init_not_logged :
  ~ init_first_once unlistenable /\
  diagnostics unlistenable = [Uncaught TypeError] /\
  listeners (page_load unlistenable) = [].
Proof.
  split; [|split; reflexivity].
  intros [H _]. discriminate H.
Qed.

(** C4, amended. On every page load over a document in which no element
    takes the place of [document.addEventListener], with or without a
    [main] element and whether or not the query then succeeds, the
    initialisation entry is the first entry of the console and occurs on
    it exactly once. *)
Theorem init_first_and_once (d : Document) :
  listen_shadowed d = false ->
  hd_error (diagnostics d) = Some init_entry /\
  occurrences init_entry (diagnostics d) = 1.
Proof.
  intros Hl. unfold diagnostics. rewrite page_load_eq, Hl. cbn [console].
  split; [reflexivity | apply occurrences_listener_entries].
Qed.

Lemma init_first_and_once_witness :
  hd_error (diagnostics shadowed_hello) = Some init_entry /\
  occurrences init_entry (diagnostics shadowed_hello) = 1.
Proof. exact (init_first_and_once shadowed_hello eq_refl). Defined.




(** C6. The probe does not change the document: one run of the body, any
    number of runs of the body, any number of firings of the event in any
    world, and the page load as a whole all leave the document tree as it
    was.  The body leaves the listener list alone as well. *)
Theorem probe_leaves_document (w : world) (n : nat) :
  document (exec probe w) = document w /\
  listeners (exec probe w) = listeners w /\
  document (Nat.iter n (exec probe) w) = document w /\
  document (Nat.iter n (exec content_loaded) w) = document w /\
  document (page_load (document w)) = document w.
Proof.
  destruct (probe_frame w) as [Hd Hl].
  split; [exact Hd|]. split; [exact Hl|].
  split; [apply probe_iter_frame|].
  split; [apply content_loaded_iter_document|].
  rewrite page_load_eq. now destruct (listen_shadowed (document w)).
Qed.

(** C7, as stated, fails when an element takes the place of the query
    method: [shadowed_twice] has two [main] elements, the call of
    [document.querySelector] throws, and the probe reports on neither. *)
Lemma shadowed_first_main_unreported :
  ~ first_of_many_reported shadowed_twice /\
  diagnostics shadowed_twice = [init_entry; Uncaught TypeError].
Proof.
  split; [|reflexivity].
  intros H.
  specialize (H (html_element "main" [] [Text (lit "first")])
                (html_element "main" [] [el "b" [Text (lit "second")]])
                [] eq_refl).
  simpl in H. destruct H as [H|[H|[]]]; discriminate H.
Qed.

(** C7, amended. When the document has two or more [main] elements, and
    no element takes the place of [document.addEventListener] or
    [document.querySelector], the query returns the first of them in
    tree order, and the one number the probe reports is the length of the
    inner markup of that element. *)
Theorem first_main_reported (d : Document) (m1 m2 : element)
    (rest : list element) :
  unshadowed d ->
  all_main d = m1 :: m2 :: rest ->
  first_main d = Some m1 /\
  diagnostics d =
    [init_entry; found_entry (JSString.length (innerHTML m1))] /\
  count about_length (diagnostics d) = 1.
Proof.
  intros Hu H.
  assert (Hq : first_main d = Some m1)
    by (rewrite first_main_head, H; reflexivity).
  split; [exact Hq|].
  rewrite (diagnostics_eq d Hu), (outcome_found d _ Hq). split; reflexivity.
Qed.

Lemma first_main_reported_witness :
  all_main twice =
    [html_element "main" [] [Text (lit "first")];
     html_element "main" [] [el "b" [Text (lit "second")]]] /\
  diagnostics twice = [init_entry; found_entry 5].
Proof.
  split; [reflexivity|].
  exact (proj1 (proj2
    (first_main_reported twice
       (html_element "main" [] [Text (lit "first")])
       (html_element "main" [] [el "b" [Text (lit "second")]])
       [] (conj eq_refl eq_refl) eq_refl))).
Defined.




(** C9, as stated, fails when an element takes the place of the query
    method: over [<form name="querySelector"></form><main>Hello</main>]
    a run of the body writes the initialisation entry and throws, one
    entry and not two. *)
Lemma shadowed_run_writes_one :
  ~ two_entries (fresh shadowed_hello) /\
  console (exec probe (fresh shadowed_hello)) = [init_entry].
Proof.
  split; [|reflexivity].
  intros H. discriminate H.
Qed.

(** C9, amended. In a world over a document in which no element takes
    the place of [document.addEventListener] or [document.querySelector],
    every run of the body appends exactly two entries to the console: the
    initialisation entry, then the informational entry with the length
    when there is a [main] element and the error entry when there is
    none.  The console of a page load consists of these two entries. *)
Theorem two_diagnostics (w : world) :
  unshadowed (document w) ->
  console (exec probe w) =
    console w ++
    [init_entry;
     match first_main (document w) with
     | Some e => found_entry (JSString.length (innerHTML e))
     | None => missing_entry
     end] /\
  List.length (console (exec probe w)) = List.length (console w) + 2 /\
  diagnostics (document w) =
    [init_entry;
     match first_main (document w) with
     | Some e => found_entry (JSString.length (innerHTML e))
     | None => missing_entry
     end] /\
  List.length (diagnostics (document w)) = 2.
Proof.
  intros Hu. rewrite (diagnostics_eq _ Hu), (probe_exec w (proj2 Hu)).
  cbn [console]. rewrite length_app. repeat split.
Qed.

Lemma two_diagnostics_witness :
  console (exec probe (World soup [] [missing_entry])) =
    [missing_entry; init_entry; found_entry 11] /\
  List.length (diagnostics soup) = 2.
Proof.
  pose proof (two_diagnostics (World soup [] [missing_entry])
                (conj eq_refl eq_refl)) as [H1 [_ [_ H2]]].
  exact (conj H1 H2).
Defined.

(** C10, as stated, fails: the output depends on a third fact.
    [<main>Hello</main>] with and without a [<form name="querySelector">]
    in front have the same summary, a first [main] element of inner
    length 5, and different consoles. *)
Lemma summary_not_enough :
  ~ summary_decides hello shadowed_hello /\
  summary hello = Some 5%Z /\ summary shadowed_hello = Some 5%Z.
Proof.
  split; [|split; reflexivity].
  intros H. specialize (H eq_refl). discriminate H.
Qed.

(** C10, amended. The console of a page load depends on the document
    only through four facts: whether an element takes the place of
    [document.addEventListener], whether one takes the place of
    [document.querySelector], whether there is a first [main] element
    and, if so, the length of its inner markup.  Two documents that agree
    on them give the same entries. *)
Theorem diagnostics_determined_by_summary (d1 d2 : Document) :
  listen_shadowed d1 = listen_shadowed d2 ->
  query_shadowed d1 = query_shadowed d2 ->
  summary d1 = summary d2 ->
  diagnostics d1 = diagnostics d2.
Proof.
  intros Hl Hq H. unfold diagnostics. rewrite !page_load_eq, Hl.
  destruct (listen_shadowed d2); [reflexivity|].
  cbn [console]. unfold listener_entries. rewrite Hq.
  now rewrite (proj1 (outcome_summary d1 d2) H).
Qed.

Lemma diagnostics_determined_by_summary_witness :
  hello <> broken_line /\ diagnostics hello = diagnostics broken_line.
Proof.
  split; [discriminate|].
  exact (diagnostics_determined_by_summary hello broken_line
           eq_refl eq_refl eq_refl).
Defined.

(** ** Further facts about the host operations *)

(** The length is counted in UTF-16 code units, which the script's
    message calls characters: a text of one code point outside the basic
    plane, stored as a surrogate pair, is reported as 2. *)
Example length_counts_code_units :
  diagnostics (page [el "main" [Text [55356%N; 57202%N]]])
    = [init_entry; found_entry 2].
Proof. reflexivity. Qed.

(** Text is measured as serialised: [a&b] is [a&amp;b], of length 7. *)
Example length_counts_escaped_text :
  diagnostics (page [el "main" [Text (lit "a&b")]])
    = [init_entry; found_entry 7].
Proof. reflexivity. Qed.

(** An empty [main] element is found and reported with length 0. *)
Example empty_main_reported :
  diagnostics (page [el "main" []]) = [init_entry; found_entry 0].
Proof. reflexivity. Qed.

(** The operations of the body that can throw: reading [innerHTML] of
    [null] throws, and the body reads it only under the test of the
    reference; a string that is no selector makes the query throw, and
    ['main'] is a selector; a method of [document] that an element
    shadows cannot be called. *)
Example innerHTML_of_null_throws (w : world) :
  result (get_innerHTML None) w = Throw TypeError.
Proof. reflexivity. Qed.

Example query_of_no_selector_throws :
  result (document_querySelector (lit "")) (fresh hello) = Throw SyntaxError.
Proof. reflexivity. Qed.

Example shadowed_method_throws :
  result (document_querySelector (lit "main")) (fresh shadowed_hello)
    = Throw TypeError.
Proof. reflexivity. Qed.

(** The scenario of the specification with [<main>Hello</main>]. *)
Example hello_diagnostics :
  diagnostics hello = [init_entry; found_entry 5].
Proof. reflexivity. Qed.

(** ** Beyond one page load: other events, repeated inclusion, shadowed
    methods, and what the console reveals *)

Import Repeat RepeatFacts NamedFacts.

(** X1. The listener is registered for [DOMContentLoaded] only: firing
    an event of any other type after the script has run calls nothing,
    writes nothing to the console and leaves the world as it was. *)
Theorem other_events_do_not_run_probe (d : Document) (ty : jsstring) :
  ty <> dom_content_loaded ->
  exec (fire call ty) (exec script (fresh d)) = exec script (fresh d) /\
  console (exec (fire call ty) (exec script (fresh d))) = [].
Proof.
  intros Hty.
  assert (Hl : listens ty subscription = false).
  { destruct (listens ty subscription) eqn:E; [|reflexivity].
    apply listens_subscription in E. contradiction. }
  assert (Hs : exec script (fresh d) =
               if listen_shadowed d then fresh d
               else World d [subscription] []).
  { unfold exec. rewrite script_run. cbn [fresh document].
    now destruct (listen_shadowed d). }
  rewrite Hs. destruct (listen_shadowed d).
  - now split.
  - unfold exec, fire, remaining.
    cbn [document listeners console filter].
    rewrite Hl. cbn [andb negb invoke_all ret snd]. now split.
Qed.

Lemma other_events_do_not_run_probe_witness :
  console (exec (fire call (lit "load")) (exec script (fresh soup))) = [].
Proof.
  refine (proj2 (other_events_do_not_run_probe soup (lit "load") _)).
  discriminate.
Defined.

(** X2. The script does not guard against being evaluated more than
    once, and each firing calls every registered copy of the listener.
    Over a document in which no element takes the place of
    [document.addEventListener], after [k] evaluations of the script and
    [n] firings of [DOMContentLoaded] the console holds [n * k] times
    the entries of one call of the listener, the body has run [n * k]
    times, all [k] listeners are still registered and the document is
    unchanged. *)
Theorem inclusions_and_firings_multiply (d : Document) (k n : nat) :
  listen_shadowed d = false ->
  console (fired n (included k d)) = reports (n * k) d /\
  runs (fired n (included k d)) = n * k /\
  listeners (fired n (included k d)) = repeat subscription k /\
  document (fired n (included k d)) = d.
Proof.
  intros Hl. rewrite (included_eq k d Hl), fired_subscriptions.
  unfold runs. cbn [console listeners document app].
  rewrite occurrences_reports. repeat split.
Qed.

Lemma inclusions_and_firings_multiply_witness :
  console (fired 1 (included 2 hello)) =
    [init_entry; found_entry 5; init_entry; found_entry 5] /\
  runs (fired 3 (included 2 hello)) = 6.
Proof.
  split.
  - exact (proj1 (inclusions_and_firings_multiply hello 2 1 eq_refl)).
  - exact (proj1 (proj2
             (inclusions_and_firings_multiply hello 2 3 eq_refl))).
Defined.

(** X3. The error entry is on the console of a page load exactly when
    no element takes the place of [document.addEventListener] or
    [document.querySelector] and the document has no element named
    [main], at any depth. *)
Theorem error_iff_no_main (d : Document) :
  In missing_entry (diagnostics d) <->
  unshadowed d /\
  (forall e, In e (elements d) -> localName e <> lit "main").
Proof.
  rewrite <- first_main_none. unfold unshadowed, diagnostics.
  rewrite page_load_eq. unfold listener_entries, outcome.
  destruct (listen_shadowed d), (query_shadowed d), (first_main d) as [m|];
    cbn [console]; split;
    try (intros [[H1 H2] H3]; discriminate);
    try (intros [H|[H|[]]]; discriminate H);
    try (intros [H|[]]; discriminate H).
  - intros _. repeat split.
  - intros _. right. left. reflexivity.
Qed.

Lemma error_iff_no_main_witness :
  In missing_entry (diagnostics bare) /\
  ~ In missing_entry (diagnostics shadowed_bare).
Proof.
  split.
  - apply (proj2 (error_iff_no_main bare)). split; [split; reflexivity|].
    intros e He. simpl in He.
    repeat (destruct He as [<-|He]; [discriminate|]). destruct He.
  - intros H. apply (proj1 (error_iff_no_main shadowed_bare)) in H.
    destruct H as [[_ H] _]. discriminate H.
Defined.

(** X4. Over a document in which no element takes the place of
    [document.addEventListener] or [document.querySelector], a [main]
    element anywhere, at any depth and whatever precedes it, makes the
    probe report a length and no error: the query finds some element
    named [main], the console is the initialisation entry followed by
    the length of that element's inner markup, and no entry is
    error-level. *)
Theorem main_anywhere_is_found (d : Document) (e : element) :
  unshadowed d ->
  In e (elements d) ->
  localName e = lit "main" ->
  exists m,
    first_main d = Some m /\
    localName m = lit "main" /\
    diagnostics d =
      [init_entry; found_entry (JSString.length (innerHTML m))] /\
    count is_error (diagnostics d) = 0.
Proof.
  intros Hu Hin Htag.
  destruct (first_main d) as [m|] eqn:Hq.
  - exists m. destruct (first_main_some d m Hq) as [_ Hm].
    rewrite (diagnostics_eq d Hu), (outcome_found d m Hq).
    repeat split. exact Hm.
  - pose proof (proj1 (first_main_none d) Hq e Hin) as Hne.
    contradiction.
Qed.

Lemma main_anywhere_is_found_witness :
  exists m,
    first_main twice = Some m /\
    localName m = lit "main" /\
    diagnostics twice =
      [init_entry; found_entry (JSString.length (innerHTML m))] /\
    count is_error (diagnostics twice) = 0.
Proof.
  apply (main_anywhere_is_found twice
           (html_element "main" [] [el "b" [Text (lit "second")]])).
  - split; reflexivity.
  - simpl. do 5 right. left. reflexivity.
  - reflexivity.
Defined.

(** X5. Over documents in which no element takes the place of
    [document.addEventListener] or [document.querySelector], the console
    of a page load reveals the summary of the document: two page loads
    with the same entries were over documents that agree on whether a
    first [main] element exists and on the length of its inner markup. *)
Theorem summary_determined_by_diagnostics (d1 d2 : Document) :
  unshadowed d1 -> unshadowed d2 ->
  diagnostics d1 = diagnostics d2 -> summary d1 = summary d2.
Proof.
  intros H1 H2. rewrite (diagnostics_eq d1 H1), (diagnostics_eq d2 H2).
  intros H. apply outcome_summary. congruence.
Qed.

Lemma summary_determined_by_diagnostics_witness :
  summary hello = summary broken_line /\ summary hello = Some 5%Z.
Proof.
  split; [|reflexivity].
  exact (summary_determined_by_diagnostics hello broken_line
           (conj eq_refl eq_refl) (conj eq_refl eq_refl) eq_refl).
Defined.

(** X6. The body calls [document.querySelector] unguarded: a [form],
    [iframe] or [img] element named [querySelector] anywhere in the
    document takes the place of the method, the body throws [TypeError]
    after the initialisation entry whether or not there is a [main]
    element, and a page load in which the listener was registered leaves
    the initialisation entry and the report of the exception. *)
Theorem named_element_aborts_probe (d : Document) (e : element) :
  In e (elements d) ->
  html_one_of ["form"; "iframe"; "img"]%string e = true ->
  content_attribute "name" e = Some (lit "querySelector") ->
  result probe (fresh d) = Throw TypeError /\
  console (exec probe (fresh d)) = [init_entry] /\
  (listen_shadowed d = false ->
   diagnostics d = [init_entry; Uncaught TypeError]).
Proof.
  intros Hin Hk Hn.
  assert (Hq : query_shadowed d = true)
    by exact (named_element_property d e _ _ Hin Hk Hn).
  rewrite probe_result. unfold exec. rewrite probe_run.
  cbn [fresh document listeners console]. rewrite Hq.
  split; [reflexivity|]. split; [reflexivity|].
  intros Hl. now apply diagnostics_query_shadowed.
Qed.

Lemma named_element_aborts_probe_witness :
  result probe (fresh shadowed_twice) = Throw TypeError /\
  diagnostics shadowed_twice = [init_entry; Uncaught TypeError].
Proof.
  assert (Hin : In (html_element "form"
                      [Attribute NoNamespace None (lit "name")
                                 (lit "querySelector")] [])
                   (elements shadowed_twice))
    by (simpl; do 3 right; left; reflexivity).
  destruct (named_element_aborts_probe shadowed_twice _ Hin eq_refl eq_refl)
    as [H1 [_ H2]].
  exact (conj H1 (H2 eq_refl)).
Defined.

(** X7. The script calls [document.addEventListener] unguarded: a
    [form], [iframe] or [img] element named [addEventListener] anywhere
    in the document takes the place of the method, the script throws
    [TypeError] at its top level, no listener is registered, and the
    page load leaves the report of the exception and nothing else: the
    body never runs. *)
Theorem named_element_blocks_registration (d : Document) (e : element) :
  In e (elements d) ->
  html_one_of ["form"; "iframe"; "img"]%string e = true ->
  content_attribute "name" e = Some (lit "addEventListener") ->
  result script (fresh d) = Throw TypeError /\
  page_load d = World d [] [Uncaught TypeError] /\
  runs (page_load d) = 0.
Proof.
  intros Hin Hk Hn.
  assert (Hl : listen_shadowed d = true)
    by exact (named_element_property d e _ _ Hin Hk Hn).
  unfold result. rewrite script_run, page_load_eq.
  cbn [fresh document]. rewrite Hl. repeat split.
Qed.

Lemma named_element_blocks_registration_witness :
  page_load unlistenable = World unlistenable [] [Uncaught TypeError].
Proof.
  assert (Hin : In (html_element "img"
                      [Attribute NoNamespace None (lit "name")
                                 (lit "addEventListener")] [])
                   (elements unlistenable))
    by (simpl; do 3 right; left; reflexivity).
  exact (proj1 (proj2
    (named_element_blocks_registration unlistenable _ Hin eq_refl eq_refl))).
Defined.
